(** * Dual keyword search service (upsonicai.py): model and properties

    The service exposes one request handler, [perform_double_search], which
    runs one agent task per keyword and merges the two task responses, and one
    tool, [SerpAPITool.search], which queries the search provider and turns
    its JSON answer into a list of [SearchResult] records.

    Python values are embedded as follows: JSON documents as the inductive
    [json] whose objects are finite maps; exceptions as the type [exn];
    code that raises, reads the environment or performs an outbound HTTP call
    as a state-and-exception monad over the process state. *)

From stdpp Require Import base option list strings gmap fin_maps.
From Stdlib Require Import ZArith.

Local Open Scope Z_scope.

(** ** Python values *)

#[local] Set Warnings "-register-all".

(** The value returned by [response.json()]: a JSON document.  Numbers are
    kept as integers; no operation of the service inspects a number. *)
Inductive json : Type :=
| JNull
| JBool (b : bool)
| JNum (n : Z)
| JStr (s : string)
| JArr (l : list json)
| JObj (m : gmap string json).

(** The exceptions the handler and the tool can end with. *)
Inductive exn : Type :=
| HTTPException (status_code : Z) (detail : string)
| AttributeError
| TypeError
| ValidationError
| JSONDecodeError
| ConnectionError.

(** ** Response formats (lines 34-41) *)

Record SearchResult : Type := mkSearchResult {
  title : string;
  link : string;
  snippet : string
}.

Record DoubleSearchResponse : Type := mkDoubleSearchResponse {
  keyword1_results : list SearchResult;
  keyword2_results : list SearchResult
}.

(** ** The process: environment and outbound traffic *)

Record Request : Type := mkRequest {
  req_method : string;
  req_url : string;
  req_headers : gmap string string;
  req_data : string
}.

Record Response : Type := mkResponse {
  status_code : Z;
  text : string;
  (** what [response.json()] evaluates to; [None] when the body does not
      parse and the call raises *)
  body : option json
}.

Record process : Type := mkProcess {
  environ : gmap string string;
  (** the requests posted so far, oldest first *)
  outbound : list Request
}.

(** ** The monad of the service code *)

Definition M (A : Type) : Type := process → (exn + A) * process.

Definition ret {A} (a : A) : M A := λ p, (inr a, p).

Definition raise {A} (e : exn) : M A := λ p, (inl e, p).

Definition bind {A B} (k : A → M B) (m : M A) : M B :=
  λ p, match m p with
       | (inl e, p') => (inl e, p')
       | (inr a, p') => k a p'
       end.

#[export] Instance M_ret : MRet M := @ret.
#[export] Instance M_bind : MBind M := @bind.

(** A list comprehension whose element expression may raise: elements are
    evaluated left to right and the first exception ends the evaluation. *)
Fixpoint mapM {A B} (f : A → M B) (l : list A) : M (list B) :=
  match l with
  | [] => ret []
  | x :: l' => y ← f x; ys ← mapM f l'; ret (y :: ys)
  end.

(** [os.getenv(name)] *)
Definition os_getenv (name : string) : M (option string) :=
  λ p, (inr (environ p !! name), p).

(** Truth value of an [Optional[str]]: [None] and the empty string are
    false. *)
Definition truthy_str (v : option string) : bool :=
  match v with
  | None => false
  | Some s => negb (String.eqb s "")
  end.

(** ** SerpAPITool (lines 44-73) *)

Section SerpAPITool.

(** The search provider: the answer [requests.post] obtains for a request,
    [inl] when the call itself raises. *)
Variable post : Request → exn + Response.

(** [json.dumps] of the standard library. *)
Variable json_dumps : json → string.

(** What the [ObjectResponse] base class (imported from upsonic) does with
    a constructor argument that is not a string although the field is
    declared [str]: [None] when it rejects the argument, [Some s] when it
    coerces it to [s]. *)
Variable coerce_str : json → option string.

(** [requests.post(url, headers=headers, data=data)] *)
Definition requests_post (url : string) (headers : gmap string string)
    (data : string) : M Response :=
  λ p, let req := mkRequest "POST" url headers data in
       (post req, mkProcess (environ p) (outbound p ++ [req])).

(** [response.json()] *)
Definition response_json (response : Response) : M json :=
  match body response with
  | Some data => ret data
  | None => raise JSONDecodeError
  end.

(** [d.get(key, dflt)]: only a dict has the method. *)
Definition dict_get (d : json) (key : string) (dflt : json) : M json :=
  match d with
  | JObj m => ret (default dflt (m !! key))
  | _ => raise AttributeError
  end.

(** [v[:10]]: a list gives its first ten elements, a string its first ten
    characters (iterated one by one by the comprehension); the other
    values cannot be sliced ([TypeError]; for a dict, [KeyError] from
    Python 3.12 on, which is not distinguished here). *)
Definition slice10 (v : json) : M (list json) :=
  match v with
  | JArr l => ret (take 10 l)
  | JStr s => ret ((λ c, JStr (String c "")) <$> take 10 (String.list_ascii_of_string s))
  | _ => raise TypeError
  end.

(** A [str] field of a response format accepts a string as it is. *)
Definition validate_str (v : json) : option string :=
  match v with
  | JStr s => Some s
  | _ => coerce_str v
  end.

(** [SearchResult(title=t, link=l, snippet=s)] *)
Definition SearchResult_init (t l s : json) : M SearchResult :=
  match validate_str t, validate_str l, validate_str s with
  | Some t', Some l', Some s' => ret (mkSearchResult t' l' s')
  | _, _, _ => raise ValidationError
  end.

(** The element expression of the comprehension at lines 64-71. *)
Definition to_search_result (result : json) : M SearchResult :=
  t ← dict_get result "title" (JStr "No Title");
  l ← dict_get result "link" (JStr "#");
  s ← dict_get result "snippet" (JStr "No Description");
  SearchResult_init t l s.

(** [search(query)].  The test [not api_key] holds for [None] and for the
    empty string. *)
Definition search (query : string) : M (list SearchResult) :=
  api_key ← os_getenv "SERPAPI_API_KEY";
  match api_key with
  | None => raise (HTTPException 500 "SerpAPI API Key not found!")
  | Some key =>
    if String.eqb key "" then
      raise (HTTPException 500 "SerpAPI API Key not found!")
    else
      let url := "https://google.serper.dev/search" in
      let headers : gmap string string :=
        {[ "X-API-KEY" := key; "Content-Type" := "application/json" ]} in
      let payload := json_dumps (JObj {[ "q" := JStr query ]}) in
      response ← requests_post url headers payload;
      if (status_code response =? 200)%Z then
        data ← response_json response;
        search_results ← dict_get data "organic" (JArr []);
        results ← slice10 search_results;
        mapM to_search_result results
      else
        raise (HTTPException 500 ("SerpAPI Request Failed: " +:+ text response))
  end.

End SerpAPITool.

(** ** Tasks and agents (upsonic objects used at lines 76-103) *)

(** A tool bound to a task: a named callable. *)
Record Tool : Type := mkTool {
  tool_name : string;
  tool_call : string → M (list SearchResult)
}.

Inductive ResponseFormat : Type :=
| DoubleSearchResponseFormat.

Record Task : Type := mkTask {
  description : string;
  tools : list Tool;
  response_format : ResponseFormat;
  (** [task.response]: [None] until an agent run stores a response *)
  response : option DoubleSearchResponse
}.

Record AgentConfiguration : Type := mkAgentConfiguration {
  job_title : string;
  company_url : string;
  company_objective : string;
  reflection : bool
}.

Definition search_agent : AgentConfiguration :=
  {| job_title := "Double Keyword Search Analyst";
     company_url := "https://upsonic.ai";
     company_objective :=
       "Fetch and analyze the latest search results for two different keywords.";
     reflection := true |}.

(** ** The request handler (lines 83-116) *)

Record DoubleSearchInput : Type := mkDoubleSearchInput {
  keyword1 : string;
  keyword2 : string
}.

(** The dictionary returned at lines 111-116, one field per key. *)
Record DoubleSearchOutput : Type := mkDoubleSearchOutput {
  out_keyword1 : string;
  out_keyword1_results : list SearchResult;
  out_keyword2 : string;
  out_keyword2_results : list SearchResult
}.

(** Truth value of [task.response]: [None] is false; a response object is
    true whatever its fields hold, since the response formats define neither
    [__bool__] nor [__len__]. *)
Definition truthy_response (r : option DoubleSearchResponse) : bool :=
  match r with
  | None => false
  | Some _ => true
  end.

Section DoubleSearch.

Variable post : Request → exn + Response.
Variable json_dumps : json → string.
Variable coerce_str : json → option string.

(** [client.agent(agent, task)]: the run of the upsonic agent on a task,
    returning the task as the run leaves it. *)
Variable client_agent : AgentConfiguration → Task → M Task.

Definition SerpAPITool : Tool :=
  {| tool_name := "SerpAPITool.search";
     tool_call := search post json_dumps coerce_str |}.

Definition search_task (keyword : string) : Task :=
  {| description :=
       "Perform a web search for " +:+ keyword +:+ " and return the top results.";
     tools := [SerpAPITool];
     response_format := DoubleSearchResponseFormat;
     response := None |}.

Definition perform_double_search (input_data : DoubleSearchInput)
    : M DoubleSearchOutput :=
  let search_task1 := search_task (keyword1 input_data) in
  let search_task2 := search_task (keyword2 input_data) in
  search_task1 ← client_agent search_agent search_task1;
  search_task2 ← client_agent search_agent search_task2;
  let search_data1 := response search_task1 in
  let search_data2 := response search_task2 in
  if negb (truthy_response search_data1) || negb (truthy_response search_data2)
  then raise (HTTPException 500 "Failed to fetch search results.")
  else
    match search_data1, search_data2 with
    | Some data1, Some data2 =>
        ret {| out_keyword1 := keyword1 input_data;
               out_keyword1_results := keyword1_results data1;
               out_keyword2 := keyword2 input_data;
               out_keyword2_results := keyword2_results data2 |}
    | _, _ =>
        (* attribute access on [None]; the guard above excludes it *)
        raise AttributeError
    end.

End DoubleSearch.

(** ** ResultSchema *)

(** One step of a field path: a field name or a position in a sequence. *)
Inductive path_elem : Type :=
| Field (name : string)
| Index (i : nat).

(** The serialisation and validation that the [ObjectResponse] base class
    (imported from upsonic, absent from the sources) derives from the field
    declarations at lines 34-41, as section 4.2 describes them: validation is
    structural, required fields must be present and of the correct primitive
    type, unknown fields are ignored, a missing field with a documented
    default is filled with it, and a failure names the offending field
    path. *)
Module ResultSchema.

(** Modelled from the spec: the SchemaMismatchError of section 4.2, which
    names the offending field path. *)
Definition SchemaMismatchError : Type := list path_elem.

(** Modelled from the spec: a SearchHit serialised by the base class, one
    key per field declared at lines 35-37. *)
Definition serialize_hit (h : SearchResult) : json :=
  JObj {[ "title" := JStr (title h);
          "link" := JStr (link h);
          "snippet" := JStr (snippet h) ]}.

(** Modelled from the spec: a DualSearchResult serialised by the base
    class, one key per field declared at lines 40-41. *)
Definition serialize (r : DoubleSearchResponse) : json :=
  JObj {[ "keyword1_results" := JArr (serialize_hit <$> keyword1_results r);
          "keyword2_results" := JArr (serialize_hit <$> keyword2_results r) ]}.

(** Puts the position of a failing sub-value in front of its path. *)
Definition under {A} (e : path_elem) (r : SchemaMismatchError + A)
    : SchemaMismatchError + A :=
  match r with
  | inl path => inl (e :: path)
  | inr a => inr a
  end.

(** Modelled from the spec: validation of a string field by the base
    class (section 4.2): a string is kept, a missing field takes its
    documented default, any other value is a mismatch at that field. *)
Definition str_field (m : gmap string json) (name dflt : string)
    : SchemaMismatchError + string :=
  match m !! name with
  | None => inr dflt
  | Some (JStr s) => inr s
  | Some _ => inl [Field name]
  end.

(** Modelled from the spec: validation of a SearchHit by the base class
    (section 4.2), with the defaults of section 3; keys other than the
    three fields are ignored. *)
Definition deserialize_hit (v : json) : SchemaMismatchError + SearchResult :=
  match v with
  | JObj m =>
      match str_field m "title" "No Title" with
      | inl e => inl e
      | inr t =>
        match str_field m "link" "#" with
        | inl e => inl e
        | inr l =>
          match str_field m "snippet" "No Description" with
          | inl e => inl e
          | inr s => inr (mkSearchResult t l s)
          end
        end
      end
  | _ => inl []
  end.

(** Modelled from the spec: validation of a sequence of SearchHit by the
    base class, the first entry of which has position [i]. *)
Fixpoint deserialize_hits (i : nat) (l : list json)
    : SchemaMismatchError + list SearchResult :=
  match l with
  | [] => inr []
  | v :: l' =>
      match under (Index i) (deserialize_hit v) with
      | inl e => inl e
      | inr h =>
        match deserialize_hits (S i) l' with
        | inl e => inl e
        | inr hs => inr (h :: hs)
        end
      end
  end.

(** Modelled from the spec: validation of a required field that holds a
    sequence of SearchHit (section 4.2). *)
Definition hits_field (m : gmap string json) (name : string)
    : SchemaMismatchError + list SearchResult :=
  match m !! name with
  | Some (JArr l) => under (Field name) (deserialize_hits 0 l)
  | _ => inl [Field name]
  end.

(** Modelled from the spec: validation of a DualSearchResult by the base
    class (section 4.2): both result fields are required. *)
Definition deserialize (v : json) : SchemaMismatchError + DoubleSearchResponse :=
  match v with
  | JObj m =>
      match hits_field m "keyword1_results" with
      | inl e => inl e
      | inr r1 =>
        match hits_field m "keyword2_results" with
        | inl e => inl e
        | inr r2 => inr (mkDoubleSearchResponse r1 r2)
        end
      end
  | _ => inl []
  end.

End ResultSchema.

(** ** Vocabulary of the statements *)

(** The request the specification describes for a query: a POST to the
    provider with the API key in a header and [{q: query}] as payload. *)
Definition search_request (json_dumps : json → string) (key query : string)
    : Request :=
  {| req_method := "POST";
     req_url := "https://google.serper.dev/search";
     req_headers := {[ "X-API-KEY" := key; "Content-Type" := "application/json" ]};
     req_data := json_dumps (JObj {[ "q" := JStr query ]}) |}.

(** The process after one more outbound request. *)
Definition sent (p : process) (req : Request) : process :=
  {| environ := environ p; outbound := outbound p ++ [req] |}.

(** The API key is configured: present and not empty. *)
Definition configured (p : process) (key : string) : Prop :=
  environ p !! "SERPAPI_API_KEY" = Some key ∧ key ≠ "".

(** A field of a provider entry as section 6 expects it: a string, or left
    out. *)
Definition str_or_missing (m : gmap string json) (name : string) : bool :=
  match m !! name with
  | None | Some (JStr _) => true
  | Some _ => false
  end.

(** A [{title, link, snippet}]-shaped provider entry, missing fields
    tolerated. *)
Definition shaped (entry : json) : bool :=
  match entry with
  | JObj m =>
      str_or_missing m "title" && str_or_missing m "link"
      && str_or_missing m "snippet"
  | _ => false
  end.

(** The documented default-substitution rule for one field. *)
Definition field_or (m : gmap string json) (name dflt : string) : string :=
  match m !! name with
  | Some (JStr s) => s
  | _ => dflt
  end.

(** The SearchHit that section 3 documents for a provider entry. *)
Definition documented_hit (entry : json) : SearchResult :=
  match entry with
  | JObj m =>
      {| title := field_or m "title" "No Title";
         link := field_or m "link" "#";
         snippet := field_or m "snippet" "No Description" |}
  | _ => {| title := "No Title"; link := "#"; snippet := "No Description" |}
  end.

(** A computation that leaves the process as it found it: no request goes
    out and the environment is not written. *)
Definition silent {A} (m : M A) : Prop := ∀ p, snd (m p) = p.

(** A computation whose outcome is decided by the environment alone, which
    it does not write: the requests posted earlier have no influence. *)
Definition env_only {A} (m : M A) : Prop :=
  ∀ p p', environ p = environ p' →
    fst (m p) = fst (m p') ∧ environ (snd (m p)) = environ p.

(** A response without content: no hit for either keyword. *)
Definition empty_response (r : DoubleSearchResponse) : Prop :=
  keyword1_results r = [] ∧ keyword2_results r = [].

(** A task that is Failed or yields an empty or absent response: it has
    no response after its run, or one without content. *)
Definition absent_or_empty (task : Task) : Prop :=
  match response task with
  | None => True
  | Some r => empty_response r
  end.

(** The statement that every absent or empty response fails the request,
    for agent runs that return. *)
Definition empty_response_fails_request : Prop :=
  ∀ post json_dumps coerce_str client_agent input_data p task1 p1 task2 p2,
    client_agent search_agent
      (search_task post json_dumps coerce_str (keyword1 input_data)) p
      = (inr task1, p1) →
    client_agent search_agent
      (search_task post json_dumps coerce_str (keyword2 input_data)) p1
      = (inr task2, p2) →
    absent_or_empty task1 ∨ absent_or_empty task2 →
    fst (perform_double_search post json_dumps coerce_str client_agent
           input_data p)
      = inl (HTTPException 500 "Failed to fetch search results.").

(** ** Concrete scenarios *)

(** A stand-in for [json.dumps] that shows the query of a payload. *)
Definition show_payload (v : json) : string :=
  match v with
  | JObj m =>
      match m !! "q" with
      | Some (JStr q) => "{q: " +:+ q +:+ "}"
      | _ => "{}"
      end
  | _ => "null"
  end.

(** A base class that rejects every argument that is not a string. *)
Definition strict : json → option string := λ _, None.

Definition three_entries : list json :=
  [ JObj {[ "title" := JStr "X" ]};
    JObj {[ "title" := JStr "Rust"; "link" := JStr "https://www.rust-lang.org";
            "snippet" := JStr "A language" ]};
    JObj ∅ ].

(** A provider that answers every request with three organic entries. *)
Definition provider_ok (req : Request) : exn + Response :=
  inr {| status_code := 200; text := "ok";
         body := Some (JObj {[ "organic" := JArr three_entries ]}) |}.

(** A provider that answers every request with status 500. *)
Definition provider_down (req : Request) : exn + Response :=
  inr {| status_code := 500; text := "Internal Server Error"; body := None |}.

(** A provider whose answer has no organic field. *)
Definition provider_bare (req : Request) : exn + Response :=
  inr {| status_code := 200; text := "{}"; body := Some (JObj ∅) |}.

Definition with_key : process :=
  {| environ := {[ "SERPAPI_API_KEY" := "secret" ]}; outbound := [] |}.

Definition without_key : process :=
  {| environ := ∅; outbound := [] |}.

Definition no_hits : DoubleSearchResponse :=
  {| keyword1_results := []; keyword2_results := [] |}.

(** An agent run that completes every task with a response without hits. *)
Definition agent_no_hits (agent : AgentConfiguration) (task : Task) : M Task :=
  mret {| description := description task; tools := tools task;
          response_format := response_format task;
          response := Some no_hits |}.

(** An agent run that leaves every task without a response. *)
Definition agent_fails (agent : AgentConfiguration) (task : Task) : M Task :=
  mret task.

Definition rust_golang : DoubleSearchInput :=
  {| keyword1 := "rust"; keyword2 := "golang" |}.

Definition twelve_entries : list json :=
  (λ n, JObj {[ "title" := JStr (String (Ascii.ascii_of_nat (65 + n)%nat) "") ]}) <$> seq 0 12.

(** A provider that answers every request with twelve organic entries. *)
Definition provider_many (req : Request) : exn + Response :=
  inr {| status_code := 200; text := "ok";
         body := Some (JObj {[ "organic" := JArr twelve_entries ]}) |}.

Definition three_hits : list SearchResult :=
  [ {| title := "X"; link := "#"; snippet := "No Description" |};
    {| title := "Rust"; link := "https://www.rust-lang.org";
       snippet := "A language" |};
    {| title := "No Title"; link := "#"; snippet := "No Description" |} ].

(** An agent run that fills both halves of the response, each with one hit
    that tells the half and the task it was produced for. *)
Definition agent_tagged (agent : AgentConfiguration) (task : Task) : M Task :=
  let hit half :=
    {| title := half; link := "#"; snippet := description task |} in
  mret {| description := description task; tools := tools task;
          response_format := response_format task;
          response := Some {| keyword1_results := [hit "first half"];
                              keyword2_results := [hit "second half"] |} |}.
(** ** Further vocabulary and scenarios *)

(** A JSON value that is an object (a Python dict). *)
Definition is_object (v : json) : bool :=
  match v with
  | JObj _ => true
  | _ => false
  end.

(** A JSON value that can be neither sliced nor defaulted: what
    [data.get("organic", [])] hands over when the key is there but holds
    [null], a truth value or a number. *)
Definition is_scalar (v : json) : bool :=
  match v with
  | JNull | JBool _ | JNum _ => true
  | _ => false
  end.

(** The value the constructor receives for a field of an entry: the
    entry's value when the key is there, the default otherwise. *)
Definition field_value (e : gmap string json) (name dflt : string) : json :=
  default (JStr dflt) (e !! name).

(** An entry that is an object with a field the response format does not
    accept: the key is there and its value is neither a string nor coerced
    to one. *)
Definition rejects (coerce_str : json → option string) (entry : json) : bool :=
  match entry with
  | JObj e =>
      existsb (λ v, bool_decide (validate_str coerce_str v = None))
        [ field_value e "title" "No Title"; field_value e "link" "#";
          field_value e "snippet" "No Description" ]
  | _ => false
  end.

(** The hit made of the accepted fields of an object. *)
Definition accepted_hit (coerce_str : json → option string)
    (e : gmap string json) : SearchResult :=
  {| title := default "" (validate_str coerce_str (field_value e "title" "No Title"));
     link := default "" (validate_str coerce_str (field_value e "link" "#"));
     snippet :=
       default "" (validate_str coerce_str (field_value e "snippet" "No Description")) |}.

(** Ten well-formed entries followed by two that are not even objects. *)
Definition ten_and_garbage : list json :=
  take 10 twelve_entries ++ [JNum 0; JNull].

Definition provider_garbage_tail (req : Request) : exn + Response :=
  inr {| status_code := 200; text := "ok";
         body := Some (JObj {[ "organic" := JArr ten_and_garbage ]}) |}.

(** A well-formed entry followed by a number. *)
Definition provider_number_entry (req : Request) : exn + Response :=
  inr {| status_code := 200; text := "ok";
         body := Some (JObj {[ "organic" :=
                                 JArr [JObj {[ "title" := JStr "X" ]}; JNum 7] ]}) |}.

(** An entry whose title is there, but [null]. *)
Definition provider_null_title (req : Request) : exn + Response :=
  inr {| status_code := 200; text := "ok";
         body := Some (JObj {[ "organic" :=
                                 JArr [JObj {[ "title" := JNull ]}] ]}) |}.

(** An answer whose organic field is [null]. *)
Definition provider_null_organic (req : Request) : exn + Response :=
  inr {| status_code := 200; text := "ok";
         body := Some (JObj {[ "organic" := JNull ]}) |}.

(** An answer that is a JSON array, not an object. *)
Definition provider_array_body (req : Request) : exn + Response :=
  inr {| status_code := 200; text := "[]"; body := Some (JArr []) |}.

(** An agent run that raises without touching the task. *)
Definition agent_raises (agent : AgentConfiguration) (task : Task) : M Task :=
  raise ConnectionError.

(** An agent run that calls the first tool of its task with the task
    description as query and reports the hits under both keywords. *)
Definition agent_searching (agent : AgentConfiguration) (task : Task) : M Task :=
  match tools task with
  | tool :: _ =>
      hits ← tool_call tool (description task);
      mret {| description := description task; tools := tools task;
              response_format := response_format task;
              response := Some {| keyword1_results := hits;
                                  keyword2_results := hits |} |}
  | [] => mret task
  end.



(** ** The search tool *)

Section SearchFacts.

Variable post : Request → exn + Response.
Variable json_dumps : json → string.
Variable coerce_str : json → option string.

Abbreviation search := (search post json_dumps coerce_str).

Lemma bind_inr {A B} (m : M A) (k : A → M B) p a p' :
  m p = (inr a, p') → (m ≫= k) p = k a p'.
Proof. intros H. unfold mbind, M_bind, bind. by rewrite H. Qed.

Lemma bind_inl {A B} (m : M A) (k : A → M B) p e p' :
  m p = (inl e, p') → (m ≫= k) p = (inl e, p').
Proof. intros H. unfold mbind, M_bind, bind. by rewrite H. Qed.

Lemma silent_ret {A} (a : A) : silent (mret a).
Proof. by intros p. Qed.

Lemma silent_raise {A} e : silent (@raise A e).
Proof. by intros p. Qed.

Lemma silent_bind {A B} (m : M A) (k : A → M B) :
  silent m → (∀ a, silent (k a)) → silent (m ≫= k).
Proof.
  intros Hm Hk p. unfold mbind, M_bind, bind.
  specialize (Hm p). destruct (m p) as [[e|a] p1]; cbn in Hm; subst p1.
  - reflexivity.
  - apply Hk.
Qed.

Lemma silent_mapM {A B} (f : A → M B) l :
  (∀ a, silent (f a)) → silent (mapM f l).
Proof.
  intros Hf. induction l as [|x l IH].
  - apply silent_ret.
  - cbn [mapM]. apply silent_bind; [apply Hf|]. intros y.
    apply silent_bind; [apply IH|]. intros ys. apply silent_ret.
Qed.

Lemma silent_dict_get d key dflt : silent (dict_get d key dflt).
Proof. destruct d; by intros p. Qed.

Lemma silent_to_search_result entry :
  silent (to_search_result coerce_str entry).
Proof.
  unfold to_search_result.
  repeat (apply silent_bind; [apply silent_dict_get|]; intros ?).
  unfold SearchResult_init.
  repeat case_match; (apply silent_ret || apply silent_raise).
Qed.

(** What the tool does with a provider answer is computation only. *)
Lemma silent_after_post resp :
  silent (if (status_code resp =? 200)%Z then
            data ← response_json resp;
            search_results ← dict_get data "organic" (JArr []);
            results ← slice10 search_results;
            mapM (to_search_result coerce_str) results
          else
            raise (HTTPException 500
                     ("SerpAPI Request Failed: " +:+ text resp))).
Proof.
  destruct (status_code resp =? 200)%Z; [|apply silent_raise].
  apply silent_bind.
  { unfold response_json. destruct (body resp); by intros p. }
  intros data. apply silent_bind; [apply silent_dict_get|].
  intros v. apply silent_bind.
  { destruct v; by intros p. }
  intros l. apply silent_mapM, silent_to_search_result.
Qed.

(** With a configured key the tool posts exactly the request of the
    specification and continues with the provider's answer. *)
Lemma search_posts query p key :
  configured p key →
  search query p =
    match post (search_request json_dumps key query) with
    | inl e => (inl e, sent p (search_request json_dumps key query))
    | inr response =>
        (if (status_code response =? 200)%Z then
           data ← response_json response;
           search_results ← dict_get data "organic" (JArr []);
           results ← slice10 search_results;
           mapM (to_search_result coerce_str) results
         else
           raise (HTTPException 500
                    ("SerpAPI Request Failed: " +:+ text response)))
          (sent p (search_request json_dumps key query))
    end.
Proof.
  intros [Hkey Hne]. unfold search.
  erewrite bind_inr by (unfold os_getenv; rewrite Hkey; reflexivity).
  cbv beta iota. apply String.eqb_neq in Hne. rewrite Hne.
  unfold mbind at 1, M_bind, bind, requests_post. cbv zeta. fold (search_request json_dumps key query).
  reflexivity.
Qed.

Lemma to_search_result_shaped entry p :
  shaped entry = true →
  to_search_result coerce_str entry p = (inr (documented_hit entry), p).
Proof.
  destruct entry as [| | | |l|m]; try discriminate.
  unfold shaped, str_or_missing, to_search_result, documented_hit, field_or.
  intros H. apply andb_prop in H as [H Hs]. apply andb_prop in H as [Ht Hl].
  unfold dict_get, mbind, M_bind, bind, ret.
  destruct (m !! "title") as [[]|]; try discriminate;
    destruct (m !! "link") as [[]|]; try discriminate;
    destruct (m !! "snippet") as [[]|]; try discriminate; reflexivity.
Qed.

Lemma mapM_shaped entries p :
  forallb shaped entries = true →
  mapM (to_search_result coerce_str) entries p =
    (inr (documented_hit <$> entries), p).
Proof.
  induction entries as [|e l IH]; [reflexivity|].
  cbn [forallb]. intros H. apply andb_prop in H as [He Hl].
  cbn [mapM]. erewrite bind_inr by (by apply to_search_result_shaped).
  erewrite bind_inr by (by apply IH). reflexivity.
Qed.

(** The successful path of the tool, for a provider answer of the
    expected shape. *)
Lemma search_shaped query p key resp m entries :
  configured p key →
  post (search_request json_dumps key query) = inr resp →
  status_code resp = 200 →
  body resp = Some (JObj m) →
  m !! "organic" = Some (JArr entries) →
  forallb shaped (take 10 entries) = true →
  search query p =
    (inr (documented_hit <$> take 10 entries),
     sent p (search_request json_dumps key query)).
Proof.
  intros Hcfg Hpost Hst Hbody Horg Hsh.
  rewrite (search_posts _ _ _ Hcfg), Hpost, Hst. cbn [Z.eqb Pos.eqb].
  unfold response_json. rewrite Hbody.
  erewrite bind_inr by reflexivity.
  unfold dict_get. rewrite Horg. cbn [default].
  erewrite bind_inr by reflexivity.
  erewrite bind_inr by reflexivity.
  by apply mapM_shaped.
Qed.

(** C2.  For a provider answer with status 200 and a non-empty organic
    array of shaped entries, the tool returns as many hits as the array has
    entries, at most ten, and the hit at each position is the one of the
    provider entry at the same position. *)
Theorem search_length_and_order query p key resp m entries :
  configured p key →
  post (search_request json_dumps key query) = inr resp →
  status_code resp = 200 →
  body resp = Some (JObj m) →
  m !! "organic" = Some (JArr entries) →
  entries ≠ [] →
  forallb shaped (take 10 entries) = true →
  ∃ hits,
    fst (search query p) = inr hits
    ∧ length hits = Nat.min 10 (length entries)
    ∧ ∀ i, (i < length hits)%nat → hits !! i = documented_hit <$> entries !! i.
Proof.
  intros Hcfg Hpost Hst Hbody Horg _ Hsh.
  exists (documented_hit <$> take 10 entries).
  rewrite (search_shaped _ _ _ _ _ _ Hcfg Hpost Hst Hbody Horg Hsh).
  split; [reflexivity|]. rewrite length_fmap, length_take. split; [reflexivity|].
  intros i Hi. rewrite list_lookup_fmap, lookup_take_lt by lia. reflexivity.
Qed.

(** C3.  In the hit produced for a provider entry, a field the entry
    lacks holds the documented default and a field the entry has holds the
    entry's string. *)
Theorem search_defaults query p key resp m entries i e :
  configured p key →
  post (search_request json_dumps key query) = inr resp →
  status_code resp = 200 →
  body resp = Some (JObj m) →
  m !! "organic" = Some (JArr entries) →
  forallb shaped (take 10 entries) = true →
  (i < 10)%nat →
  entries !! i = Some (JObj e) →
  ∃ hits h,
    fst (search query p) = inr hits ∧ hits !! i = Some h
    ∧ (e !! "title" = None → title h = "No Title")
    ∧ (e !! "link" = None → link h = "#")
    ∧ (e !! "snippet" = None → snippet h = "No Description")
    ∧ (∀ s, e !! "title" = Some (JStr s) → title h = s)
    ∧ (∀ s, e !! "link" = Some (JStr s) → link h = s)
    ∧ (∀ s, e !! "snippet" = Some (JStr s) → snippet h = s).
Proof.
  intros Hcfg Hpost Hst Hbody Horg Hsh Hi He.
  exists (documented_hit <$> take 10 entries), (documented_hit (JObj e)).
  rewrite (search_shaped _ _ _ _ _ _ Hcfg Hpost Hst Hbody Horg Hsh).
  split; [reflexivity|]. split.
  { by rewrite list_lookup_fmap, lookup_take_lt, He. }
  unfold documented_hit, field_or; cbn.
  repeat split; intros; by simplify_option_eq.
Qed.

(** C4.  When the provider answers with a status other than 200, the tool
    raises the 500 exception that carries the provider's text, returns no
    hit, and has posted one request only. *)
Theorem search_provider_error query p key resp :
  configured p key →
  post (search_request json_dumps key query) = inr resp →
  status_code resp ≠ 200 →
  fst (search query p) =
    inl (HTTPException 500 ("SerpAPI Request Failed: " +:+ text resp))
  ∧ outbound (snd (search query p)) =
      outbound p ++ [search_request json_dumps key query].
Proof.
  intros Hcfg Hpost Hst.
  rewrite (search_posts _ _ _ Hcfg), Hpost.
  apply Z.eqb_neq in Hst. rewrite Hst. split; reflexivity.
Qed.

(** C5.  Without a provider API key in the environment (or with an empty
    one) the tool raises the 500 exception for the missing key and leaves
    the process as it found it: nothing has been posted. *)
Theorem search_without_api_key query p :
  truthy_str (environ p !! "SERPAPI_API_KEY") = false →
  search query p = (inl (HTTPException 500 "SerpAPI API Key not found!"), p).
Proof.
  intros H. unfold search.
  erewrite bind_inr by reflexivity. cbv beta iota.
  destruct (environ p !! "SERPAPI_API_KEY") as [key|]; [|reflexivity].
  cbn in H. apply negb_false_iff in H. rewrite H. reflexivity.
Qed.

(** C7.  With a configured key, the one request the tool sends is a POST
    to the provider whose payload is the serialisation of [{q: query}],
    with the query string as it was passed in, and whose headers carry the
    API key. *)
Theorem search_sends_query_verbatim query p key :
  configured p key →
  outbound (snd (search query p)) =
    outbound p ++
      [ {| req_method := "POST";
           req_url := "https://google.serper.dev/search";
           req_headers :=
             {[ "X-API-KEY" := key; "Content-Type" := "application/json" ]};
           req_data := json_dumps (JObj {[ "q" := JStr query ]}) |} ].
Proof.
  intros Hcfg. rewrite (search_posts _ _ _ Hcfg).
  fold (search_request json_dumps key query).
  destruct (post _) as [e|resp]; [reflexivity|].
  by rewrite silent_after_post.
Qed.

(** C10.  When the provider answers with status 200 and a JSON object
    that has no organic field, or an empty organic array, the tool returns
    the empty list and raises nothing. *)
Theorem search_no_organic query p key resp m :
  configured p key →
  post (search_request json_dumps key query) = inr resp →
  status_code resp = 200 →
  body resp = Some (JObj m) →
  m !! "organic" = None ∨ m !! "organic" = Some (JArr []) →
  fst (search query p) = inr [].
Proof.
  intros Hcfg Hpost Hst Hbody Horg.
  rewrite (search_posts _ _ _ Hcfg), Hpost, Hst. cbn [Z.eqb Pos.eqb].
  unfold response_json. rewrite Hbody.
  erewrite bind_inr by reflexivity.
  unfold dict_get. by destruct Horg as [-> | ->].
Qed.

End SearchFacts.

(** ** The request handler *)

Section HandlerFacts.

Variable post : Request → exn + Response.
Variable json_dumps : json → string.
Variable coerce_str : json → option string.
Variable client_agent : AgentConfiguration → Task → M Task.

Abbreviation task_for := (search_task post json_dumps coerce_str).
Abbreviation handler :=
  (perform_double_search post json_dumps coerce_str client_agent).

(** The handler after two agent runs that return. *)
Lemma handler_after_runs input_data p task1 p1 task2 p2 :
  client_agent search_agent (task_for (keyword1 input_data)) p = (inr task1, p1) →
  client_agent search_agent (task_for (keyword2 input_data)) p1 = (inr task2, p2) →
  handler input_data p =
    match response task1, response task2 with
    | Some data1, Some data2 =>
        (inr {| out_keyword1 := keyword1 input_data;
                out_keyword1_results := keyword1_results data1;
                out_keyword2 := keyword2 input_data;
                out_keyword2_results := keyword2_results data2 |}, p2)
    | _, _ => (inl (HTTPException 500 "Failed to fetch search results."), p2)
    end.
Proof.
  intros H1 H2. unfold perform_double_search.
  erewrite bind_inr by exact H1. erewrite bind_inr by exact H2.
  destruct (response task1), (response task2); reflexivity.
Qed.

(** C1, amended.  When both agent runs return and either task is left
    without a response, the handler raises the 500 exception of the failed
    request and returns no result of either keyword. *)
Theorem absent_response_fails_request input_data p task1 p1 task2 p2 :
  client_agent search_agent (task_for (keyword1 input_data)) p = (inr task1, p1) →
  client_agent search_agent (task_for (keyword2 input_data)) p1 = (inr task2, p2) →
  response task1 = None ∨ response task2 = None →
  handler input_data p =
    (inl (HTTPException 500 "Failed to fetch search results."), p2).
Proof.
  intros H1 H2 Hnone. rewrite (handler_after_runs _ _ _ _ _ _ H1 H2).
  destruct Hnone as [-> | ->]; [reflexivity|].
  by destruct (response task1).
Qed.

(** C6.  When both agent runs return with a response, the handler's
    result holds the caller's two keywords as given, the first keyword's
    results of the first task and the second keyword's results of the
    second task; the other two result lists do not occur in it. *)
Theorem merge_takes_own_slot input_data p task1 p1 task2 p2 data1 data2 :
  client_agent search_agent (task_for (keyword1 input_data)) p = (inr task1, p1) →
  client_agent search_agent (task_for (keyword2 input_data)) p1 = (inr task2, p2) →
  response task1 = Some data1 →
  response task2 = Some data2 →
  fst (handler input_data p) =
    inr {| out_keyword1 := keyword1 input_data;
           out_keyword1_results := keyword1_results data1;
           out_keyword2 := keyword2 input_data;
           out_keyword2_results := keyword2_results data2 |}.
Proof.
  intros H1 H2 Hd1 Hd2.
  by rewrite (handler_after_runs _ _ _ _ _ _ H1 H2), Hd1, Hd2.
Qed.

End HandlerFacts.

(** C1, as stated, fails: two agent runs that complete with responses
    without any hit are answered with a successful, empty result. *)
Lemma empty_response_is_returned : ¬ empty_response_fails_request.
Proof.
  intros H.
  assert (fst (perform_double_search provider_ok show_payload strict
                 agent_no_hits rust_golang with_key)
          = inr {| out_keyword1 := "rust"; out_keyword1_results := [];
                   out_keyword2 := "golang"; out_keyword2_results := [] |})
    as Hrun by reflexivity.
  rewrite (H provider_ok show_payload strict agent_no_hits rust_golang
             with_key _ _ _ _ eq_refl eq_refl) in Hrun.
  - discriminate Hrun.
  - left. split; reflexivity.
Qed.

(** ** ResultSchema *)

Lemma deserialize_serialize_hit h :
  ResultSchema.deserialize_hit (ResultSchema.serialize_hit h) = inr h.
Proof.
  destruct h as [t l s].
  unfold ResultSchema.deserialize_hit, ResultSchema.serialize_hit,
    ResultSchema.str_field; cbn [title link snippet].
  rewrite lookup_insert_eq.
  rewrite lookup_insert_ne, lookup_insert_eq by done.
  rewrite !lookup_insert_ne, lookup_singleton_eq by done.
  reflexivity.
Qed.

Lemma deserialize_serialize_hits l i :
  ResultSchema.deserialize_hits i (ResultSchema.serialize_hit <$> l) = inr l.
Proof.
  revert i. induction l as [|h l IH]; intros i; [reflexivity|].
  cbn [fmap list_fmap ResultSchema.deserialize_hits].
  change (list_fmap _ _ ?f l) with (f <$> l).
  by rewrite deserialize_serialize_hit, IH.
Qed.

(** C8.  A response serialised through ResultSchema and read back through
    it is the response one started from, field for field. *)
Theorem schema_round_trip (r : DoubleSearchResponse) :
  ResultSchema.deserialize (ResultSchema.serialize r) = inr r.
Proof.
  destruct r as [r1 r2].
  unfold ResultSchema.deserialize, ResultSchema.serialize,
    ResultSchema.hits_field; cbn [keyword1_results keyword2_results].
  rewrite lookup_insert_eq, deserialize_serialize_hits.
  rewrite lookup_insert_ne, lookup_singleton_eq, deserialize_serialize_hits by done.
  reflexivity.
Qed.

(** ** Independence from earlier requests *)

Lemma env_only_ret {A} (a : A) : env_only (mret a).
Proof. by intros p p' H. Qed.

Lemma env_only_raise {A} e : env_only (@raise A e).
Proof. by intros p p' H. Qed.

Lemma env_only_bind {A B} (m : M A) (k : A → M B) :
  env_only m → (∀ a, env_only (k a)) → env_only (m ≫= k).
Proof.
  intros Hm Hk p p' Hp. unfold mbind, M_bind, bind.
  destruct (Hm p p' Hp) as [Hr Hq], (Hm p' p (eq_sym Hp)) as [_ Hq'].
  destruct (m p) as [r q], (m p') as [r' q']; cbn in Hr, Hq, Hq'. subst r'.
  destruct r as [e|a]; [done|].
  destruct (Hk a q q') as [Hr' Hq'']; [congruence|].
  split; [done | congruence].
Qed.

Section ServiceFacts.

Variable post : Request → exn + Response.
Variable json_dumps : json → string.
Variable coerce_str : json → option string.

Lemma env_only_os_getenv name : env_only (os_getenv name).
Proof. intros p p' H. unfold os_getenv; cbn. by rewrite H. Qed.

Lemma env_only_requests_post url headers data :
  env_only (requests_post post url headers data).
Proof. by intros p p' H. Qed.

Lemma env_only_dict_get d key dflt : env_only (dict_get d key dflt).
Proof. destruct d; by intros p p' H. Qed.

Lemma env_only_mapM {A B} (f : A → M B) l :
  (∀ a, env_only (f a)) → env_only (mapM f l).
Proof.
  intros Hf. induction l as [|x l IH]; [apply env_only_ret|].
  cbn [mapM]. apply env_only_bind; [apply Hf|]. intros y.
  apply env_only_bind; [apply IH|]. intros ys. apply env_only_ret.
Qed.

Lemma env_only_to_search_result entry :
  env_only (to_search_result coerce_str entry).
Proof.
  unfold to_search_result.
  repeat (apply env_only_bind; [apply env_only_dict_get|]; intros ?).
  unfold SearchResult_init.
  repeat case_match; (apply env_only_ret || apply env_only_raise).
Qed.

Lemma env_only_search query :
  env_only (search post json_dumps coerce_str query).
Proof.
  unfold search. apply env_only_bind; [apply env_only_os_getenv|].
  intros [key|]; [|apply env_only_raise].
  destruct (String.eqb key ""); [apply env_only_raise|]. cbv zeta.
  apply env_only_bind; [apply env_only_requests_post|]. intros resp.
  destruct (status_code resp =? 200)%Z; [|apply env_only_raise].
  apply env_only_bind.
  { unfold response_json. destruct (body resp); by intros p p' H. }
  intros data. apply env_only_bind; [apply env_only_dict_get|].
  intros v. apply env_only_bind.
  { destruct v; by intros p p' H. }
  intros l. apply env_only_mapM, env_only_to_search_result.
Qed.

(** The handler keeps nothing of its own between requests: it depends
    on the process only through its agent runs. *)
Lemma env_only_handler client_agent input_data :
  (∀ keyword,
     env_only (client_agent search_agent
                 (search_task post json_dumps coerce_str keyword))) →
  env_only (perform_double_search post json_dumps coerce_str client_agent
              input_data).
Proof.
  intros Hagent. unfold perform_double_search.
  apply env_only_bind; [apply Hagent|]. intros task1.
  apply env_only_bind; [apply Hagent|]. intros task2.
  repeat case_match; (apply env_only_ret || apply env_only_raise).
Qed.


End ServiceFacts.


(** ** Single inputs *)

(** Scenario C: an entry with a title only. *)
Example scenario_C :
  fst (to_search_result strict (JObj {[ "title" := JStr "X" ]}) with_key)
  = inr {| title := "X"; link := "#"; snippet := "No Description" |}.
Proof. vm_compute. reflexivity. Qed.

(** An organic array that is not made of objects ends the tool with an
    exception rather than with hits. *)
Example unshaped_entry :
  fst (search (λ _, inr {| status_code := 200; text := "";
                           body := Some (JObj {[ "organic" := JArr [JNum 1] ]}) |})
         show_payload strict "rust" with_key)
  = inl AttributeError.
Proof. vm_compute. reflexivity. Qed.

(** ** Instances of the statements *)

Lemma search_length_and_order_witness :
  ∃ hits,
    fst (search provider_many show_payload strict "rust" with_key) = inr hits
    ∧ length hits = Nat.min 10 (length twelve_entries)
    ∧ ∀ i, (i < length hits)%nat →
           hits !! i = documented_hit <$> twelve_entries !! i.
Proof.
  apply (search_length_and_order provider_many show_payload strict "rust"
           with_key "secret"
           {| status_code := 200; text := "ok";
              body := Some (JObj {[ "organic" := JArr twelve_entries ]}) |}
           {[ "organic" := JArr twelve_entries ]} twelve_entries).
  - split; [vm_compute; reflexivity | discriminate].
  - reflexivity.
  - reflexivity.
  - reflexivity.
  - vm_compute; reflexivity.
  - discriminate.
  - vm_compute; reflexivity.
Defined.

Lemma search_defaults_witness :
  ∃ hits h,
    fst (search provider_ok show_payload strict "rust" with_key) = inr hits
    ∧ hits !! 0%nat = Some h
    ∧ (({[ "title" := JStr "X" ]} : gmap string json) !! "title" = None →
       title h = "No Title")
    ∧ (({[ "title" := JStr "X" ]} : gmap string json) !! "link" = None →
       link h = "#")
    ∧ (({[ "title" := JStr "X" ]} : gmap string json) !! "snippet" = None →
       snippet h = "No Description")
    ∧ (∀ s, ({[ "title" := JStr "X" ]} : gmap string json) !! "title"
              = Some (JStr s) → title h = s)
    ∧ (∀ s, ({[ "title" := JStr "X" ]} : gmap string json) !! "link"
              = Some (JStr s) → link h = s)
    ∧ (∀ s, ({[ "title" := JStr "X" ]} : gmap string json) !! "snippet"
              = Some (JStr s) → snippet h = s).
Proof.
  apply (search_defaults provider_ok show_payload strict "rust" with_key
           "secret"
           {| status_code := 200; text := "ok";
              body := Some (JObj {[ "organic" := JArr three_entries ]}) |}
           {[ "organic" := JArr three_entries ]} three_entries 0%nat
           {[ "title" := JStr "X" ]}).
  - split; [vm_compute; reflexivity | discriminate].
  - reflexivity.
  - reflexivity.
  - reflexivity.
  - vm_compute; reflexivity.
  - vm_compute; reflexivity.
  - lia.
  - reflexivity.
Defined.

Lemma search_provider_error_witness :
  fst (search provider_down show_payload strict "rust" with_key)
    = inl (HTTPException 500 "SerpAPI Request Failed: Internal Server Error")
  ∧ outbound (snd (search provider_down show_payload strict "rust" with_key))
    = [search_request show_payload "secret" "rust"].
Proof.
  apply (search_provider_error provider_down show_payload strict "rust"
           with_key "secret"
           {| status_code := 500; text := "Internal Server Error";
              body := None |}).
  - split; [vm_compute; reflexivity | discriminate].
  - reflexivity.
  - discriminate.
Defined.

Lemma search_without_api_key_witness :
  search provider_ok show_payload strict "rust" without_key
    = (inl (HTTPException 500 "SerpAPI API Key not found!"), without_key).
Proof.
  apply (search_without_api_key provider_ok show_payload strict "rust"
           without_key).
  vm_compute; reflexivity.
Defined.

Lemma search_sends_query_verbatim_witness :
  outbound (snd (search provider_ok show_payload strict "  Rust & Go  " with_key))
    = [ {| req_method := "POST";
           req_url := "https://google.serper.dev/search";
           req_headers :=
             {[ "X-API-KEY" := "secret"; "Content-Type" := "application/json" ]};
           req_data := show_payload (JObj {[ "q" := JStr "  Rust & Go  " ]}) |} ].
Proof.
  apply (search_sends_query_verbatim provider_ok show_payload strict
           "  Rust & Go  " with_key "secret").
  split; [vm_compute; reflexivity | discriminate].
Defined.

Lemma search_no_organic_witness :
  fst (search provider_bare show_payload strict "rust" with_key) = inr [].
Proof.
  apply (search_no_organic provider_bare show_payload strict "rust" with_key
           "secret" {| status_code := 200; text := "{}"; body := Some (JObj ∅) |}
           ∅).
  - split; [vm_compute; reflexivity | discriminate].
  - reflexivity.
  - reflexivity.
  - reflexivity.
  - left. vm_compute; reflexivity.
Defined.

Lemma absent_response_fails_request_witness :
  perform_double_search provider_ok show_payload strict agent_fails
    rust_golang with_key
  = (inl (HTTPException 500 "Failed to fetch search results."), with_key).
Proof.
  apply (absent_response_fails_request provider_ok show_payload strict
           agent_fails rust_golang with_key
           (search_task provider_ok show_payload strict "rust") with_key
           (search_task provider_ok show_payload strict "golang") with_key).
  - reflexivity.
  - reflexivity.
  - left. reflexivity.
Defined.

Lemma merge_takes_own_slot_witness :
  fst (perform_double_search provider_ok show_payload strict agent_tagged
         rust_golang with_key)
  = inr {| out_keyword1 := "rust";
           out_keyword1_results :=
             [ {| title := "first half"; link := "#";
                  snippet :=
                    "Perform a web search for rust and return the top results." |} ];
           out_keyword2 := "golang";
           out_keyword2_results :=
             [ {| title := "second half"; link := "#";
                  snippet :=
                    "Perform a web search for golang and return the top results." |} ] |}.
Proof.
  eapply (merge_takes_own_slot provider_ok show_payload strict agent_tagged
           rust_golang with_key _ with_key _ with_key
           {| keyword1_results :=
                [ {| title := "first half"; link := "#";
                     snippet :=
                       "Perform a web search for rust and return the top results." |} ];
              keyword2_results :=
                [ {| title := "second half"; link := "#";
                     snippet :=
                       "Perform a web search for rust and return the top results." |} ] |}
           {| keyword1_results :=
                [ {| title := "first half"; link := "#";
                     snippet :=
                       "Perform a web search for golang and return the top results." |} ];
              keyword2_results :=
                [ {| title := "second half"; link := "#";
                     snippet :=
                       "Perform a web search for golang and return the top results." |} ] |}).
  - reflexivity.
  - reflexivity.
  - reflexivity.
  - reflexivity.
Defined.

(** ** Further properties of the search tool *)

Section MoreSearchFacts.

Variable post : Request → exn + Response.
Variable json_dumps : json → string.
Variable coerce_str : json → option string.

Abbreviation convert := (to_search_result coerce_str).

(** One entry is turned into a hit or ends the comprehension with one of
    two exceptions, and the process is not touched. *)
Lemma convert_cases entry p :
  (∃ h, convert entry p = (inr h, p))
  ∨ convert entry p = (inl AttributeError, p)
  ∨ convert entry p = (inl ValidationError, p).
Proof.
  destruct entry; try (right; left; reflexivity).
  unfold to_search_result, dict_get, SearchResult_init, mbind, M_bind, bind, ret.
  repeat case_match; simplify_eq; eauto.
Qed.

Lemma mapM_length {A B} (f : A → M B) l p ys p' :
  mapM f l p = (inr ys, p') → length ys = length l.
Proof.
  revert p ys. induction l as [|x l IH]; intros p ys H.
  - by inversion H.
  - cbn [mapM] in H. unfold mbind, M_bind, bind in H.
    destruct (f x p) as [[e|y] p1]; [done|].
    destruct (mapM f l p1) as [[e|ys'] p2] eqn:Hl; [done|].
    inversion H; subst. cbn. f_equal. by eapply IH.
Qed.

(** The two ways a call can start: refused for want of a key, or about
    to post. *)
Lemma search_key_cases query p :
  search post json_dumps coerce_str query p
    = (inl (HTTPException 500 "SerpAPI API Key not found!"), p)
  ∨ ∃ key, configured p key.
Proof.
  destruct (environ p !! "SERPAPI_API_KEY") as [key|] eqn:Hkey.
  - destruct (String.eqb key "") eqn:He.
    + left. unfold search. erewrite bind_inr by reflexivity.
      cbv beta iota. by rewrite Hkey, He.
    + right. exists key. split; [done|]. by apply String.eqb_neq.
  - left. unfold search. erewrite bind_inr by reflexivity.
    cbv beta iota. by rewrite Hkey.
Qed.

(** What a successful call has gone through. *)
Lemma search_inr_inv query p hits :
  fst (search post json_dumps coerce_str query p) = inr hits →
  ∃ key resp results,
    configured p key
    ∧ post (search_request json_dumps key query) = inr resp
    ∧ status_code resp = 200
    ∧ (length results ≤ 10)%nat
    ∧ mapM convert results (sent p (search_request json_dumps key query))
      = (inr hits, sent p (search_request json_dumps key query)).
Proof.
  intros H.
  destruct (search_key_cases query p) as [Hno|[key Hcfg]].
  { by rewrite Hno in H. }
  exists key. rewrite (search_posts _ _ _ _ _ _ Hcfg) in H.
  destruct (post _) as [e|resp]; [done|]. exists resp.
  destruct (status_code resp =? 200)%Z eqn:Hst; [|done].
  apply Z.eqb_eq in Hst.
  unfold response_json, mbind, M_bind, bind in H.
  destruct (body resp) as [data|]; [|done]. cbn in H.
  destruct data as [| | | | |m]; try done. cbn in H.
  set (q := sent p _) in *.
  assert (∀ results, fst (mapM convert results q) = inr hits →
                     mapM convert results q = (inr hits, q)) as Hsilent.
  { intros results Hr. pose proof (silent_mapM convert results
      (silent_to_search_result coerce_str) q) as Hs.
    destruct (mapM convert results q) as [r q']. cbn in *. by subst. }
  destruct (default (JArr []) (m !! "organic")) as [| | |s|l|]; try done; cbn in H.
  - eexists. split; [exact Hcfg|]. split; [reflexivity|]. split; [exact Hst|].
    split; [|by apply Hsilent]. rewrite length_fmap, length_take. lia.
  - eexists. split; [exact Hcfg|]. split; [reflexivity|]. split; [exact Hst|].
    split; [|by apply Hsilent]. rewrite length_take. lia.
Qed.

(** X1.  Whatever the provider answers, a call that returns hits returns
    at most ten of them. *)
Theorem search_at_most_ten query p hits :
  fst (search post json_dumps coerce_str query p) = inr hits → (length hits ≤ 10)%nat.
Proof.
  intros H. apply search_inr_inv in H as (key & resp & results & _ & _ & _ & Hlen & Hmap).
  apply mapM_length in Hmap. lia.
Qed.

(** X2.  Hits are returned only after the provider was asked: a call that
    returns hits found a configured key, posted exactly the request for its
    query, got status 200 for it, and left the environment as it was. *)
Theorem search_success_inversion query p hits :
  fst (search post json_dumps coerce_str query p) = inr hits →
  ∃ key resp,
    configured p key
    ∧ post (search_request json_dumps key query) = inr resp
    ∧ status_code resp = 200
    ∧ snd (search post json_dumps coerce_str query p)
      = sent p (search_request json_dumps key query).
Proof.
  intros H. pose proof H as H'.
  apply search_inr_inv in H' as (key & resp & results & Hcfg & Hpost & Hst & _ & _).
  exists key, resp. repeat (split; [done|]).
  rewrite (search_posts _ _ _ _ _ _ Hcfg), Hpost.
  apply silent_after_post.
Qed.

(** After a call with a configured key the process has exactly one more
    outbound request, whatever came back. *)
Lemma search_snd query p key :
  configured p key →
  snd (search post json_dumps coerce_str query p)
  = sent p (search_request json_dumps key query).
Proof.
  intros Hcfg. rewrite (search_posts _ _ _ _ _ _ Hcfg).
  destruct (post _) as [e|resp]; [reflexivity|]. apply silent_after_post.
Qed.

(** The answer of the tool to a provider answer with status 200 whose
    body is an object. *)
Lemma search_200_object query p key resp m :
  configured p key →
  post (search_request json_dumps key query) = inr resp →
  status_code resp = 200 →
  body resp = Some (JObj m) →
  search post json_dumps coerce_str query p =
    (results ← slice10 (default (JArr []) (m !! "organic"));
     mapM convert results) (sent p (search_request json_dumps key query)).
Proof.
  intros Hcfg Hpost Hst Hbody.
  rewrite (search_posts _ _ _ _ _ _ Hcfg), Hpost, Hst. cbn [Z.eqb Pos.eqb].
  unfold response_json. rewrite Hbody. reflexivity.
Qed.

(** A comprehension over a list that holds a value other than an object
    ends with an exception. *)
Lemma mapM_convert_not_object l p :
  forallb is_object l = false →
  ∃ e, mapM convert l p = (inl e, p)
       ∧ (e = AttributeError ∨ e = ValidationError).
Proof.
  induction l as [|v l IH]; [done|]. cbn [forallb mapM]. intros H.
  destruct (convert_cases v p) as [[h Hh]|[Hv|Hv]].
  - destruct v; try discriminate Hh. cbn in H.
    destruct (IH H) as (e & He & Hkind).
    exists e. split; [|done].
    erewrite bind_inr by exact Hh. by erewrite bind_inl by exact He.
  - exists AttributeError. split; [|by left]. by erewrite bind_inl by exact Hv.
  - exists ValidationError. split; [|by right]. by erewrite bind_inl by exact Hv.
Qed.

(** An object is turned into a hit unless one of its three fields is
    rejected. *)
Lemma convert_object e p :
  convert (JObj e) p =
    if rejects coerce_str (JObj e) then (inl ValidationError, p)
    else (inr (accepted_hit coerce_str e), p).
Proof.
  unfold to_search_result, dict_get, SearchResult_init, rejects, accepted_hit,
    field_value, mbind, M_bind, bind, ret, raise.
  cbn [existsb]. repeat case_match; simplify_eq/=; try done.
Qed.

Lemma mapM_convert_rejected l p :
  forallb is_object l = true →
  existsb (rejects coerce_str) l = true →
  mapM convert l p = (inl ValidationError, p).
Proof.
  induction l as [|v l IH]; [done|]. cbn [forallb existsb mapM].
  intros Hobj Hrej. apply andb_prop in Hobj as [Hv Hl].
  destruct v as [| | | | |e]; try done.
  pose proof (convert_object e p) as He.
  destruct (rejects coerce_str (JObj e)).
  - by erewrite bind_inl by exact He.
  - erewrite bind_inr by exact He. by erewrite bind_inl by (by apply IH).
Qed.

(** X4.  One entry among the first ten that is not an object spoils the
    whole answer: the call raises and returns no hit, also for the
    well-formed entries around it. *)
Theorem search_entry_not_object query p key resp m entries :
  configured p key →
  post (search_request json_dumps key query) = inr resp →
  status_code resp = 200 →
  body resp = Some (JObj m) →
  m !! "organic" = Some (JArr entries) →
  forallb is_object (take 10 entries) = false →
  ∃ e, fst (search post json_dumps coerce_str query p) = inl e
       ∧ (e = AttributeError ∨ e = ValidationError).
Proof.
  intros Hcfg Hpost Hst Hbody Horg Hbad.
  rewrite (search_200_object _ _ _ _ _ Hcfg Hpost Hst Hbody), Horg.
  cbn [default]. erewrite bind_inr by reflexivity.
  destruct (mapM_convert_not_object _
              (sent p (search_request json_dumps key query)) Hbad)
    as (e & He & Hkind).
  exists e. by rewrite He.
Qed.

(** X5.  The defaults are for missing keys only.  When the first ten
    entries are objects and one of them has a title, link or snippet that is
    there but is not accepted as a string (a null, say), the call raises the
    validation error of the response format. *)
Theorem search_field_rejected query p key resp m entries :
  configured p key →
  post (search_request json_dumps key query) = inr resp →
  status_code resp = 200 →
  body resp = Some (JObj m) →
  m !! "organic" = Some (JArr entries) →
  forallb is_object (take 10 entries) = true →
  existsb (rejects coerce_str) (take 10 entries) = true →
  fst (search post json_dumps coerce_str query p) = inl ValidationError.
Proof.
  intros Hcfg Hpost Hst Hbody Horg Hobj Hrej.
  rewrite (search_200_object _ _ _ _ _ Hcfg Hpost Hst Hbody), Horg.
  cbn [default]. erewrite bind_inr by reflexivity.
  by rewrite mapM_convert_rejected.
Qed.

(** X6.  The empty default is for a missing organic key only.  When the
    key is there and holds null, a truth value or a number, the call raises
    a type error. *)
Theorem search_organic_scalar query p key resp m v :
  configured p key →
  post (search_request json_dumps key query) = inr resp →
  status_code resp = 200 →
  body resp = Some (JObj m) →
  m !! "organic" = Some v →
  is_scalar v = true →
  fst (search post json_dumps coerce_str query p) = inl TypeError.
Proof.
  intros Hcfg Hpost Hst Hbody Horg Hv.
  rewrite (search_200_object _ _ _ _ _ Hcfg Hpost Hst Hbody), Horg.
  by destruct v.
Qed.

(** X7.  A status 200 answer whose body is JSON but not an object (an
    array, a string, a number) makes the call raise an attribute error. *)
Theorem search_body_not_object query p key resp data :
  configured p key →
  post (search_request json_dumps key query) = inr resp →
  status_code resp = 200 →
  body resp = Some data →
  is_object data = false →
  fst (search post json_dumps coerce_str query p) = inl AttributeError.
Proof.
  intros Hcfg Hpost Hst Hbody Hdata.
  rewrite (search_posts _ _ _ _ _ _ Hcfg), Hpost, Hst. cbn [Z.eqb Pos.eqb].
  unfold response_json. rewrite Hbody.
  erewrite bind_inr by reflexivity. by destruct data.
Qed.

(** X8.  Nothing is cached: the same query asked twice in a row posts
    the same request twice and gets the same outcome both times. *)
Theorem search_twice query p key :
  configured p key →
  fst (search post json_dumps coerce_str query
         (snd (search post json_dumps coerce_str query p)))
  = fst (search post json_dumps coerce_str query p)
  ∧ outbound (snd (search post json_dumps coerce_str query
                     (snd (search post json_dumps coerce_str query p))))
    = outbound p ++ [ search_request json_dumps key query;
                      search_request json_dumps key query ].
Proof.
  intros Hcfg.
  assert (configured (snd (search post json_dumps coerce_str query p)) key) as Hcfg'.
  { rewrite (search_snd _ _ _ Hcfg). exact Hcfg. }
  split.
  - apply env_only_search. by rewrite (search_snd _ _ _ Hcfg).
  - rewrite (search_snd _ _ _ Hcfg'), (search_snd _ _ _ Hcfg).
    cbn. by rewrite <- app_assoc.
Qed.

End MoreSearchFacts.

(** X3.  Provider entries after the tenth are never looked at: two answers
    with status 200 whose organic arrays agree on their first ten entries
    get the same outcome, however the rest looks. *)
Theorem search_ignores_tail post post' json_dumps coerce_str query p key
    resp resp' m m' entries entries' :
  configured p key →
  post (search_request json_dumps key query) = inr resp →
  post' (search_request json_dumps key query) = inr resp' →
  status_code resp = 200 →
  status_code resp' = 200 →
  body resp = Some (JObj m) →
  body resp' = Some (JObj m') →
  m !! "organic" = Some (JArr entries) →
  m' !! "organic" = Some (JArr entries') →
  take 10 entries = take 10 entries' →
  fst (search post json_dumps coerce_str query p)
  = fst (search post' json_dumps coerce_str query p).
Proof.
  intros Hcfg Hpost Hpost' Hst Hst' Hbody Hbody' Horg Horg' Htake.
  rewrite (search_200_object _ _ _ _ _ _ _ _ Hcfg Hpost Hst Hbody), Horg.
  rewrite (search_200_object _ _ _ _ _ _ _ _ Hcfg Hpost' Hst' Hbody'), Horg'.
  cbn [default]. erewrite !bind_inr by reflexivity. by rewrite Htake.
Qed.

(** ** Further properties of the request handler *)

Section MoreHandlerFacts.

Variable post : Request → exn + Response.
Variable json_dumps : json → string.
Variable coerce_str : json → option string.
Variable client_agent : AgentConfiguration → Task → M Task.

Abbreviation first_task input_data :=
  (search_task post json_dumps coerce_str (keyword1 input_data)).
Abbreviation second_task input_data :=
  (search_task post json_dumps coerce_str (keyword2 input_data)).

(** X9.  An exception raised by an agent run is not turned into the
    handler's own failure: it leaves the handler as it is, and when it comes
    from the first run the second run is not started. *)
Theorem handler_agent_exception input_data p e q :
  client_agent search_agent (first_task input_data) p = (inl e, q)
  ∨ (∃ task1 p1,
       client_agent search_agent (first_task input_data) p = (inr task1, p1)
       ∧ client_agent search_agent (second_task input_data) p1 = (inl e, q)) →
  perform_double_search post json_dumps coerce_str client_agent input_data p = (inl e, q).
Proof.
  unfold perform_double_search. intros [H1 | (task1 & p1 & H1 & H2)].
  - by erewrite bind_inl by exact H1.
  - erewrite bind_inr by exact H1. by erewrite bind_inl by exact H2.
Qed.

(** X10.  A result is returned only when both agent runs returned and
    both left a response; it then holds the caller's keywords unchanged,
    the first task's results for the first keyword and the second task's
    results for the second. *)
Theorem handler_success_inversion input_data p out :
  fst (perform_double_search post json_dumps coerce_str client_agent
         input_data p) = inr out →
  ∃ task1 p1 task2 p2 data1 data2,
    client_agent search_agent (first_task input_data) p = (inr task1, p1)
    ∧ client_agent search_agent (second_task input_data) p1 = (inr task2, p2)
    ∧ response task1 = Some data1
    ∧ response task2 = Some data2
    ∧ out = {| out_keyword1 := keyword1 input_data;
               out_keyword1_results := keyword1_results data1;
               out_keyword2 := keyword2 input_data;
               out_keyword2_results := keyword2_results data2 |}.
Proof.
  unfold perform_double_search, mbind, M_bind, bind. intros H.
  destruct (client_agent search_agent (first_task input_data) p)
    as [[e|task1] p1] eqn:H1; [done|].
  destruct (client_agent search_agent (second_task input_data) p1)
    as [[e|task2] p2] eqn:H2; [done|].
  exists task1, p1, task2, p2.
  destruct (response task1) as [data1|], (response task2) as [data2|];
    try done.
  exists data1, data2. cbn in H. simplify_eq. by split_and!.
Qed.

(** X11.  The handler keeps nothing between requests.  When the outcome
    of each agent run depends on the environment only, so does the
    handler's: the requests served before make no difference. *)
Theorem handler_forgets_history input_data env log log' :
  (∀ keyword,
     env_only (client_agent search_agent
                 (search_task post json_dumps coerce_str keyword))) →
  fst (perform_double_search post json_dumps coerce_str client_agent
         input_data {| environ := env; outbound := log |})
  = fst (perform_double_search post json_dumps coerce_str client_agent
           input_data {| environ := env; outbound := log' |}).
Proof.
  intros Hagent.
  by apply (env_only_handler post json_dumps coerce_str client_agent
              input_data Hagent).
Qed.

End MoreHandlerFacts.

(** ** Instances of the further properties *)

Lemma search_at_most_ten_witness :
  (length (documented_hit <$> take 10 twelve_entries) ≤ 10)%nat.
Proof.
  apply (search_at_most_ten provider_many show_payload strict "rust" with_key).
  vm_compute; reflexivity.
Defined.

Lemma search_success_inversion_witness :
  ∃ key resp,
    configured with_key key
    ∧ provider_ok (search_request show_payload key "rust") = inr resp
    ∧ status_code resp = 200
    ∧ snd (search provider_ok show_payload strict "rust" with_key)
      = sent with_key (search_request show_payload key "rust").
Proof.
  apply (search_success_inversion provider_ok show_payload strict "rust"
           with_key three_hits).
  vm_compute; reflexivity.
Defined.

Lemma search_ignores_tail_witness :
  fst (search provider_many show_payload strict "rust" with_key)
  = fst (search provider_garbage_tail show_payload strict "rust" with_key).
Proof.
  apply (search_ignores_tail provider_many provider_garbage_tail show_payload
           strict "rust" with_key "secret"
           {| status_code := 200; text := "ok";
              body := Some (JObj {[ "organic" := JArr twelve_entries ]}) |}
           {| status_code := 200; text := "ok";
              body := Some (JObj {[ "organic" := JArr ten_and_garbage ]}) |}
           {[ "organic" := JArr twelve_entries ]}
           {[ "organic" := JArr ten_and_garbage ]}
           twelve_entries ten_and_garbage).
  - split; [vm_compute; reflexivity | discriminate].
  - reflexivity.
  - reflexivity.
  - reflexivity.
  - reflexivity.
  - reflexivity.
  - reflexivity.
  - vm_compute; reflexivity.
  - vm_compute; reflexivity.
  - vm_compute; reflexivity.
Defined.

Lemma search_entry_not_object_witness :
  ∃ e, fst (search provider_number_entry show_payload strict "rust" with_key)
       = inl e
       ∧ (e = AttributeError ∨ e = ValidationError).
Proof.
  apply (search_entry_not_object provider_number_entry show_payload strict
           "rust" with_key "secret"
           {| status_code := 200; text := "ok";
              body := Some (JObj {[ "organic" :=
                        JArr [JObj {[ "title" := JStr "X" ]}; JNum 7] ]}) |}
           {[ "organic" := JArr [JObj {[ "title" := JStr "X" ]}; JNum 7] ]}
           [JObj {[ "title" := JStr "X" ]}; JNum 7]).
  - split; [vm_compute; reflexivity | discriminate].
  - reflexivity.
  - reflexivity.
  - reflexivity.
  - vm_compute; reflexivity.
  - vm_compute; reflexivity.
Defined.

Lemma search_field_rejected_witness :
  fst (search provider_null_title show_payload strict "rust" with_key)
  = inl ValidationError.
Proof.
  apply (search_field_rejected provider_null_title show_payload strict "rust"
           with_key "secret"
           {| status_code := 200; text := "ok";
              body := Some (JObj {[ "organic" :=
                        JArr [JObj {[ "title" := JNull ]}] ]}) |}
           {[ "organic" := JArr [JObj {[ "title" := JNull ]}] ]}
           [JObj {[ "title" := JNull ]}]).
  - split; [vm_compute; reflexivity | discriminate].
  - reflexivity.
  - reflexivity.
  - reflexivity.
  - vm_compute; reflexivity.
  - vm_compute; reflexivity.
  - vm_compute; reflexivity.
Defined.

Lemma search_organic_scalar_witness :
  fst (search provider_null_organic show_payload strict "rust" with_key)
  = inl TypeError.
Proof.
  apply (search_organic_scalar provider_null_organic show_payload strict
           "rust" with_key "secret"
           {| status_code := 200; text := "ok";
              body := Some (JObj {[ "organic" := JNull ]}) |}
           {[ "organic" := JNull ]} JNull).
  - split; [vm_compute; reflexivity | discriminate].
  - reflexivity.
  - reflexivity.
  - reflexivity.
  - vm_compute; reflexivity.
  - reflexivity.
Defined.

Lemma search_body_not_object_witness :
  fst (search provider_array_body show_payload strict "rust" with_key)
  = inl AttributeError.
Proof.
  apply (search_body_not_object provider_array_body show_payload strict
           "rust" with_key "secret"
           {| status_code := 200; text := "[]"; body := Some (JArr []) |}
           (JArr [])).
  - split; [vm_compute; reflexivity | discriminate].
  - reflexivity.
  - reflexivity.
  - reflexivity.
  - reflexivity.
Defined.

Lemma search_twice_witness :
  fst (search provider_ok show_payload strict "rust"
         (snd (search provider_ok show_payload strict "rust" with_key)))
  = fst (search provider_ok show_payload strict "rust" with_key)
  ∧ outbound (snd (search provider_ok show_payload strict "rust"
                     (snd (search provider_ok show_payload strict "rust"
                             with_key))))
    = outbound with_key ++ [ search_request show_payload "secret" "rust";
                             search_request show_payload "secret" "rust" ].
Proof.
  apply (search_twice provider_ok show_payload strict "rust" with_key "secret").
  split; [vm_compute; reflexivity | discriminate].
Defined.

Lemma handler_agent_exception_witness :
  perform_double_search provider_ok show_payload strict agent_raises
    rust_golang with_key
  = (inl ConnectionError, with_key).
Proof.
  apply (handler_agent_exception provider_ok show_payload strict agent_raises
           rust_golang with_key ConnectionError with_key).
  left. reflexivity.
Defined.

Lemma handler_success_inversion_witness :
  ∃ task1 p1 task2 p2 data1 data2,
    agent_no_hits search_agent
      (search_task provider_ok show_payload strict (keyword1 rust_golang))
      with_key = (inr task1, p1)
    ∧ agent_no_hits search_agent
        (search_task provider_ok show_payload strict (keyword2 rust_golang))
        p1 = (inr task2, p2)
    ∧ response task1 = Some data1
    ∧ response task2 = Some data2
    ∧ {| out_keyword1 := "rust"; out_keyword1_results := [];
         out_keyword2 := "golang"; out_keyword2_results := [] |}
      = {| out_keyword1 := keyword1 rust_golang;
           out_keyword1_results := keyword1_results data1;
           out_keyword2 := keyword2 rust_golang;
           out_keyword2_results := keyword2_results data2 |}.
Proof.
  apply (handler_success_inversion provider_ok show_payload strict
           agent_no_hits rust_golang with_key).
  reflexivity.
Defined.

Lemma handler_forgets_history_witness :
  fst (perform_double_search provider_ok show_payload strict agent_tagged
         rust_golang {| environ := environ with_key; outbound := [] |})
  = fst (perform_double_search provider_ok show_payload strict agent_tagged
           rust_golang
           {| environ := environ with_key;
              outbound := [search_request show_payload "secret" "rust"] |}).
Proof.
  apply (handler_forgets_history provider_ok show_payload strict agent_tagged
           rust_golang).
  intros keyword p p' H. split; reflexivity.
Defined.


(** The first of the two requests above returns hits and leaves two
    outbound requests behind, so the second one starts from another
    process. *)
Example searching_agent_posts :
  fst (perform_double_search provider_ok show_payload strict agent_searching
         rust_golang with_key)
  = inr {| out_keyword1 := "rust"; out_keyword1_results := three_hits;
           out_keyword2 := "golang"; out_keyword2_results := three_hits |}
  ∧ length (outbound (snd (perform_double_search provider_ok show_payload
                             strict agent_searching rust_golang with_key)))
    = 2%nat.
Proof. split; vm_compute; reflexivity. Qed.
